(** * ExpressLRS Configurator: result record, PATH composition, fatal errors

    A shallow embedding of
    - [src/api/src/graphql/objects/BuildFlashFirmwareResult.ts]
      (the result object and its constructor),
    - the PATH composition of [createWindow] in [src/main.dev.ts]
      (lines 167-202), and
    - the process-level error handlers of [src/main.dev.ts] (lines 54-93
      and 290-296),
    - the rest of [createWindow] up to the start of the API server, the
      application and window event handlers and the debugging aids of
      [src/main.dev.ts], and
    - the [Loader] component,
    followed by the properties of these definitions. *)

From Stdlib Require Import String Ascii List ZArith Bool.
From stdpp Require Import strings gmap.

Local Open Scope string_scope.

(* ===================================================================== *)
(** ** BuildFlashFirmwareResult *)
(* ===================================================================== *)

Module BuildFlashFirmwareResult.

(** Modelled from the spec: the enumeration [BuildFirmwareErrorType]
    ([src/api/src/models/enum/BuildFirmwareErrorType.ts]) is imported by
    the result object but is not among the sources.  The constructors
    follow the error taxonomy of the specification (section 7): build
    failures, flash failures and cancellation. *)
Inductive BuildFirmwareErrorType : Type :=
| ToolchainMissing
| DependencyResolutionFailed
| CompilationFailed
| UnknownBuildError
| DeviceNotFound
| PermissionDenied
| ProtocolTimeout
| UnknownFlashError
| Cancelled.

(** The fields in declaration order; an optional field ([?:]) that is
    [undefined] is [None]. *)
Record t : Type := mk {
  success : bool;
  errorType : option BuildFirmwareErrorType;
  message : option string;
  firmwareBinPath : option string
}.

(** [constructor(success, message?, errorType?, firmwareBinPath?)]: the
    parameter order differs from the declaration order of the fields. *)
Definition constructor
    (success : bool)
    (message : option string)
    (errorType : option BuildFirmwareErrorType)
    (firmwareBinPath : option string) : t :=
  {| success := success;
     errorType := errorType;
     message := message;
     firmwareBinPath := firmwareBinPath |}.

(** The invariant the specification asks of a result:
    [success == true] exactly when [errorType] is absent. *)
Definition success_iff_no_error (r : t) : Prop :=
  success r = true <-> errorType r = None.

End BuildFlashFirmwareResult.

(* ===================================================================== *)
(** ** Node's [path] module, as far as [createWindow] uses it *)
(* ===================================================================== *)

Module NodePath.

(** The two members of Node's [path] object that the PATH composition
    reads.  [path.delimiter] is a one-character string ([;] on Windows,
    [:] on POSIX), kept here as that character. *)
Record PathModule : Type := {
  join : string -> string -> string;
  delimiter : ascii
}.

(** Concrete instances, after [lib/path.js] of Node: the non-empty
    arguments are joined with the platform separator and the result is
    normalised ([.] and empty segments dropped, [..] resolved, a
    trailing separator kept, ["."] for an empty result).  The section
    holds what POSIX and Windows paths share; the roots of Windows
    paths (drive letters and UNC shares) follow it. *)
Section Join.
Variable sep : ascii.
Variable isPathSeparator : ascii -> bool.

Fixpoint segments (s : string) : list string :=
  match s with
  | EmptyString => [EmptyString]
  | String c s' =>
      if isPathSeparator c then EmptyString :: segments s'
      else match segments s' with
           | [] => [String c EmptyString]
           | seg :: rest => String c seg :: rest
           end
  end.

(** [normalizeString]: the stack of kept segments is held reversed. *)
Fixpoint resolve (allowAboveRoot : bool) (stack : list string)
    (segs : list string) : list string :=
  match segs with
  | [] => rev stack
  | seg :: segs' =>
      if String.eqb seg "" || String.eqb seg "." then
        resolve allowAboveRoot stack segs'
      else if String.eqb seg ".." then
        match stack with
        | top :: below =>
            if String.eqb top ".." then
              resolve allowAboveRoot (seg :: stack) segs'
            else resolve allowAboveRoot below segs'
        | [] =>
            if allowAboveRoot then resolve allowAboveRoot [seg] segs'
            else resolve allowAboveRoot [] segs'
        end
      else resolve allowAboveRoot (seg :: stack) segs'
  end.

Fixpoint unsegments (segs : list string) : string :=
  match segs with
  | [] => ""
  | [seg] => seg
  | seg :: rest => seg ++ String sep (unsegments rest)
  end.

Definition startsWithSeparator (s : string) : bool :=
  match s with
  | String c _ => isPathSeparator c
  | EmptyString => false
  end.

Fixpoint endsWithSeparator (s : string) : bool :=
  match s with
  | EmptyString => false
  | String c EmptyString => isPathSeparator c
  | String _ s' => endsWithSeparator s'
  end.

Definition normalize (p : string) : string :=
  let isAbsolute := startsWithSeparator p in
  let trailingSeparator := endsWithSeparator p in
  let body := unsegments (resolve (negb isAbsolute) [] (segments p)) in
  match body with
  | EmptyString =>
      if isAbsolute then String sep ""
      else if trailingSeparator then "." ++ String sep "" else "."
  | _ =>
      let body := if trailingSeparator then body ++ String sep "" else body in
      if isAbsolute then String sep body else body
  end.

Definition join_with (a b : string) : string :=
  let joined :=
    match a, b with
    | EmptyString, _ => b
    | _, EmptyString => a
    | _, _ => a ++ String sep b
    end in
  match joined with
  | EmptyString => "."
  | _ => normalize joined
  end.
End Join.

Definition posix : PathModule :=
  {| join := join_with "/" (fun c => Ascii.eqb c "/");
     delimiter := ":" |}.

(** *** Windows paths *)

Definition isWin32Separator (c : ascii) : bool :=
  Ascii.eqb c "/" || Ascii.eqb c "\".

(** [isWindowsDeviceRoot]: a letter, upper or lower case. *)
Definition isWindowsDeviceRoot (c : ascii) : bool :=
  let code := nat_of_ascii c in
  (Nat.leb 65 code && Nat.leb code 90) || (Nat.leb 97 code && Nat.leb code 122).

(** The longest prefix without a separator, and what follows it. *)
Fixpoint takeSegment (s : string) : string * string :=
  match s with
  | EmptyString => (EmptyString, EmptyString)
  | String c s' =>
      if isWin32Separator c then (EmptyString, s)
      else let '(seg, rest) := takeSegment s' in (String c seg, rest)
  end.

Fixpoint dropSeparators (s : string) : string :=
  match s with
  | EmptyString => EmptyString
  | String c s' => if isWin32Separator c then dropSeparators s' else s
  end.

(** The end of [win32.normalize]: [rest] is the path after its root,
    [path] the whole path. *)
Definition win32_finish (device : option string) (isAbsolute : bool)
    (rest path : string) : string :=
  let tail :=
    match rest with
    | EmptyString => ""
    | _ => unsegments "\"
             (resolve (negb isAbsolute) [] (segments isWin32Separator rest))
    end in
  let tail :=
    match tail with
    | EmptyString => if isAbsolute then "" else "."
    | _ => tail
    end in
  let tail :=
    match tail with
    | EmptyString => ""
    | _ =>
        if endsWithSeparator isWin32Separator path then tail ++ "\" else tail
    end in
  match device with
  | None => if isAbsolute then String "\" tail else tail
  | Some d => if isAbsolute then d ++ String "\" tail else d ++ tail
  end.

(** [win32.normalize]: a UNC root ([\\server\share]), a rooted path, a
    drive letter with or without a separator after it, or a relative
    path. *)
Definition win32_normalize (path : string) : string :=
  match path with
  | EmptyString => "."
  | String c0 EmptyString => if Ascii.eqb c0 "/" then "\" else path
  | String c0 (String c1 rest as after0) =>
      if isWin32Separator c0 then
        if isWin32Separator c1 then
          let '(firstPart, r1) := takeSegment rest in
          match firstPart, r1 with
          | String _ _, String _ _ =>
              match dropSeparators r1 with
              | EmptyString => win32_finish None true path path
              | r2 =>
                  let '(secondPart, r3) := takeSegment r2 in
                  match r3 with
                  | EmptyString =>
                      "\\" ++ firstPart ++ "\" ++ secondPart ++ "\"
                  | _ =>
                      win32_finish
                        (Some ("\\" ++ firstPart ++ "\" ++ secondPart))
                        true r3 path
                  end
              end
          | _, _ => win32_finish None true path path
          end
        else win32_finish None true after0 path
      else if isWindowsDeviceRoot c0 && Ascii.eqb c1 ":" then
        let device := String c0 (String c1 "") in
        match rest with
        | String c2 rest' =>
            if isWin32Separator c2 then win32_finish (Some device) true rest' path
            else win32_finish (Some device) false rest path
        | EmptyString => win32_finish (Some device) false rest path
        end
      else win32_finish None false path path
  end.

(** [win32.join]: several leading separators of the joined text are
    kept only when the first argument starts like a UNC path (two
    separators and then another character). *)
Definition win32_joinAll (paths : list string) : string :=
  let nonEmpty := List.filter (fun p => negb (String.eqb p "")) paths in
  match nonEmpty with
  | [] => "."
  | firstPart :: _ =>
      let joined := unsegments "\" nonEmpty in
      let needsReplace :=
        match firstPart with
        | String a (String b (String c _)) =>
            negb (isWin32Separator a && isWin32Separator b
                  && negb (isWin32Separator c))
        | _ => true
        end in
      let stripped := dropSeparators joined in
      let joined :=
        if needsReplace
           && Nat.leb 2 (String.length joined - String.length stripped)
        then String "\" stripped
        else joined in
      win32_normalize joined
  end.

Definition win32 : PathModule :=
  {| join := fun a b => win32_joinAll [a; b];
     delimiter := ";" |}.

End NodePath.

(* ===================================================================== *)
(** ** PATH composition in [createWindow] *)
(* ===================================================================== *)

Module Environment.
Import NodePath.

(** What the composition reads of Node's [process]: the platform
    identifier and the environment, an object used as a map from
    variable names to strings. *)
Record Process : Type := {
  platform : string;
  env : gmap string string
}.

(** [s.startsWith(searchString)] *)
Definition startsWith (s searchString : string) : bool :=
  String.prefix searchString s.

(** [dependenciesPath], from [app.isPackaged]. *)
Definition dependenciesPath (path : PathModule) (isPackaged : bool)
    (resourcesPath dirname : string) : string :=
  if isPackaged then join path resourcesPath "../dependencies"
  else join path dirname "../dependencies".

(** The local closure [prependPATH]. *)
Definition prependPATH (path : PathModule) (pth item : string) : string :=
  if (0 <? String.length pth)%nat then
    item ++ String (delimiter path) pth
  else item.

(** [process.env.PATH ?? ''] *)
Definition inheritedPATH (process : Process) : string :=
  default "" (env process !! "PATH").

(** Lines 170-202: the value of [PATH] that is handed to the API server.
    The two [if]s are sequential, as in the source. *)
Definition resolvePATH (path : PathModule) (process : Process)
    (dependenciesPath : string) : string :=
  let PATH := inheritedPATH process in
  let isWindows := startsWith (platform process) "win" in
  let isMacOS := startsWith (platform process) "darwin" in
  let PATH :=
    if isWindows then
      let portablePythonLocation :=
        join path dependenciesPath
          "windows_amd64/python-portable-windows_amd64-3.7.7" in
      let portableGitLocation :=
        join path dependenciesPath "windows_amd64/PortableGit/bin" in
      let PATH := prependPATH path PATH portablePythonLocation in
      prependPATH path PATH portableGitLocation
    else PATH in
  let PATH :=
    if isMacOS then
      let portablePythonLocation :=
        join path dependenciesPath
          "darwin_amd64/python-portable-darwin-3.8.4/bin" in
      let portableGitLocation :=
        join path dependenciesPath "darwin_amd64/git/2.30.1/bin" in
      let PATH := prependPATH path PATH portablePythonLocation in
      prependPATH path PATH portableGitLocation
    else PATH in
  PATH.

(** *** Vocabulary for the statements *)

(** The pair (portable Python location, portable Git location) of a
    recognized platform, in the order in which the source lists them;
    [None] for any other platform. *)
Definition portableLocations (path : PathModule) (platform : string)
    (dependenciesPath : string) : option (string * string) :=
  if startsWith platform "win" then
    Some (join path dependenciesPath
            "windows_amd64/python-portable-windows_amd64-3.7.7",
          join path dependenciesPath "windows_amd64/PortableGit/bin")
  else if startsWith platform "darwin" then
    Some (join path dependenciesPath
            "darwin_amd64/python-portable-darwin-3.8.4/bin",
          join path dependenciesPath "darwin_amd64/git/2.30.1/bin")
  else None.

(** The entries of a PATH string: its pieces between delimiters. *)
Fixpoint entries (d : ascii) (s : string) : list string :=
  match s with
  | EmptyString => [EmptyString]
  | String c s' =>
      if Ascii.eqb c d then EmptyString :: entries d s'
      else match entries d s' with
           | [] => [String c EmptyString]
           | e :: rest => String c e :: rest
           end
  end.

(** Position of the first entry equal to [x]. *)
Fixpoint indexOf (x : string) (l : list string) : option nat :=
  match l with
  | [] => None
  | y :: l' =>
      if String.eqb x y then Some 0%nat
      else match indexOf x l' with
           | Some i => Some (S i)
           | None => None
           end
  end.

(** Both occur as entries, and [a] is found first. *)
Definition appearsBefore (a b : string) (l : list string) : bool :=
  match indexOf a l, indexOf b l with
  | Some i, Some j => (i <? j)%nat
  | _, _ => false
  end.

(** The order in which the source lists the portable directories,
    Python first, read off the entries of the resolved PATH. *)
Definition pythonBeforeGit (path : PathModule) (process : Process)
    (dependenciesPath : string) : Prop :=
  exists py git : string,
    portableLocations path (platform process) dependenciesPath
      = Some (py, git) /\
    appearsBefore py git
      (entries (delimiter path) (resolvePATH path process dependenciesPath))
      = true.

End Environment.

(* ===================================================================== *)
(** ** Process-level error handlers *)
(* ===================================================================== *)

Module FatalError.

(** An [Error] object, as far as the handlers read it. *)
Record ErrorObject : Type := {
  name : string;
  errMessage : string;
  stack : string
}.

(** A value that reaches a handler.  The declared type of
    [handleFatalError] is [Error | object | null | undefined], and Node
    hands its listeners whatever was thrown or rejected.  A value that
    is not an [Error] and not [null] or [undefined] (an object, a
    string, a symbol) is given by what the handlers can read of it: its
    string conversion, which is missing when the conversion throws (an
    object without prototype, a symbol), and its [message] and [stack]
    properties, missing when they are [undefined]. *)
Inductive Thrown : Type :=
| AnError (e : ErrorObject)
| AnObject (repr : option string) (objMessage objStack : option string)
| Null
| Undefined.

(** The [TypeError]s that the handlers' own code can throw. *)
Inductive TypeError : Type :=
| CannotConvertToString
| CannotReadProperty (property : string).

(** String conversion in a template literal, [`${err}`]; [None] when
    the conversion throws. *)
Definition toStr (err : Thrown) : option string :=
  match err with
  | AnError e =>
      Some (if String.eqb (name e) "" then errMessage e
            else if String.eqb (errMessage e) "" then name e
            else name e ++ ": " ++ errMessage e)
  | AnObject repr _ _ => repr
  | Null => Some "null"
  | Undefined => Some "undefined"
  end.

(** [err.message]: [None] when reading the property throws (on [null]
    and [undefined]), [Some None] when it is [undefined]. *)
Definition getMessage (err : Thrown) : option (option string) :=
  match err with
  | AnError e => Some (Some (errMessage e))
  | AnObject _ objMessage _ => Some objMessage
  | Null | Undefined => None
  end.

(** [err.stack], likewise. *)
Definition getStack (err : Thrown) : option (option string) :=
  match err with
  | AnError e => Some (Some (stack e))
  | AnObject _ _ objStack => Some objStack
  | Null | Undefined => None
  end.

(** A property value in a template literal. *)
Definition render (v : option string) : string := default "undefined" v.

(** What the handlers do to the outside world: the calls they make. *)
Inductive Effect : Type :=
| LoggerError (msg : string) (trace : option string)
| ShowMessageBox (title detail msg : string)
| ConsoleLog (msg : string)
| ShowErrorBox (title content : string)
| ProcessExit (code : Z).

(** Where the main process stands: running, exited with a status once
    [process.exit] has been called, or out of the handler's code with a
    [TypeError] that this code threw and did not catch. *)
Inductive Control : Type :=
| Running
| Exited (code : Z)
| Raised (e : TypeError).

(** The main process: the effects so far and where it stands. *)
Record ProcState : Type := {
  effects : list Effect;
  control : Control
}.


Definition running : ProcState := {| effects := []; control := Running |}.

Definition Action : Type := ProcState -> ProcState.

(** Nothing runs after [process.exit], nor after a throw. *)
Definition perform (e : Effect) : Action := fun s =>
  match control s with
  | Running => {| effects := effects s ++ [e]; control := Running |}
  | _ => s
  end.

Definition process_exit (code : Z) : Action := fun s =>
  match control s with
  | Running =>
      {| effects := effects s ++ [ProcessExit code]; control := Exited code |}
  | _ => s
  end.

Definition raise (e : TypeError) : Action := fun s =>
  match control s with
  | Running => {| effects := effects s; control := Raised e |}
  | _ => s
  end.

Definition skip : Action := fun s => s.

Definition seq (a b : Action) : Action := fun s => b (a s).
Infix ">>>" := seq (at level 61, left associativity).

(** How [dialog.showMessageBox] behaves, which is not the handler's
    choice: it throws, or it returns a promise that is still pending
    (the dialog is open), fulfilled (the dialog was dismissed) or
    rejected with some value. *)
Inductive Dialog : Type :=
| Throws
| Pending
| Fulfilled
| Rejected (dialogErr : Thrown).

(** [handleFatalError], lines 54-85.  The template literal of line 55
    is outside the [try]. *)
Definition handleFatalError (err : Thrown) (dialog : Dialog) : Action :=
  match toStr err with
  | None => raise CannotConvertToString
  | Some str =>
      perform (LoggerError ("handling fatal error: " ++ str) None) >>>
      match dialog with
      | Throws =>
          perform (ShowErrorBox "Oops! Something went wrong!"
                     ("Error: " ++ str)) >>>
          process_exit 1
      | Pending | Fulfilled | Rejected _ =>
          perform (ShowMessageBox "Oops! Something went wrong!"
                     "Help us improve your experience by sending an error report"
                     ("Error: " ++ str)) >>>
          match dialog with
          | Fulfilled =>
              perform (ConsoleLog "received resp from message box") >>>
              process_exit 1
          | Rejected dialogErr =>
              match getStack dialogErr with
              | None => raise (CannotReadProperty "stack")
              | Some trace =>
                  perform (LoggerError "failed to show error dialog" trace) >>>
                  process_exit 1
              end
          | _ => skip
          end
      end
  end.

(** [process.on('uncaughtException', ...)], lines 86-89. *)
Definition onUncaughtException (err : Thrown) (dialog : Dialog) : Action :=
  match getMessage err with
  | None => raise (CannotReadProperty "message")
  | Some msg =>
      match getStack err with
      | None => raise (CannotReadProperty "stack")
      | Some trace =>
          perform (LoggerError ("uncaughtException " ++ render msg) trace) >>>
          handleFatalError err dialog
      end
  end.

(** [process.on('unhandledRejection', ...)], lines 90-93. *)
Definition onUnhandledRejection (err : Thrown) (dialog : Dialog) : Action :=
  match toStr err with
  | None => raise CannotConvertToString
  | Some str =>
      perform (LoggerError ("unhandledRejection: " ++ str) None) >>>
      handleFatalError err dialog
  end.

(** The [catch] of [app.whenReady().then(createWindow)], lines
    293-296. *)
Definition onCreateWindowError (err : Thrown) (dialog : Dialog) : Action :=
  match toStr err with
  | None => raise CannotConvertToString
  | Some str =>
      perform (LoggerError ("createWindow error " ++ str) None) >>>
      handleFatalError err dialog
  end.

(** The three ways a value reaches [handleFatalError]. *)
Inductive Fault : Type :=
| UncaughtException (err : Thrown)
| UnhandledRejection (err : Thrown)
| CreateWindowError (err : Thrown).

Definition handle (f : Fault) (dialog : Dialog) : Action :=
  match f with
  | UncaughtException err => onUncaughtException err dialog
  | UnhandledRejection err => onUnhandledRejection err dialog
  | CreateWindowError err => onCreateWindowError err dialog
  end.

(** The dialog promise has settled, or the call threw. *)
Definition settled (dialog : Dialog) : bool :=
  match dialog with
  | Pending => false
  | _ => true
  end.


End FatalError.


(* ===================================================================== *)
(** ** Sample processes and errors *)
(* ===================================================================== *)

Module Samples.
Import NodePath Environment FatalError.

Definition windowsProcess : Process :=
  {| platform := "win32";
     env := {[ "PATH" := "C:\Windows;C:\Windows\System32";
               "USERNAME" := "pilot" ]} |}.

Definition macProcess : Process :=
  {| platform := "darwin";
     env := {[ "PATH" := "/usr/bin:/bin"; "HOME" := "/Users/pilot" ]} |}.

Definition linuxProcess : Process :=
  {| platform := "linux";
     env := {[ "PATH" := "/usr/local/bin:/usr/bin"; "HOME" := "/home/pilot" ]} |}.

(** The same platform and [PATH] as [linuxProcess], another [HOME] and
    one more variable. *)
Definition otherLinuxProcess : Process :=
  {| platform := "linux";
     env := {[ "PATH" := "/usr/local/bin:/usr/bin"; "HOME" := "/root";
               "NODE_ENV" := "production" ]} |}.

(** Environments without a [PATH] variable. *)
Definition macProcessNoPATH : Process :=
  {| platform := "darwin"; env := {[ "HOME" := "/Users/pilot" ]} |}.

Definition linuxProcessNoPATH : Process :=
  {| platform := "linux"; env := ∅ |}.

Definition windowsDependencies : string :=
  dependenciesPath win32 true "C:\Program Files\ExpressLRS\resources" "".

Definition macDependencies : string :=
  dependenciesPath posix true
    "/Applications/ExpressLRS.app/Contents/Resources" "".

Definition spawnError : ErrorObject :=
  {| name := "Error";
     errMessage := "spawn platformio ENOENT";
     stack := "Error: spawn platformio ENOENT at ChildProcess._handle.onexit" |}.

End Samples.

(* ===================================================================== *)
(** ** Vocabulary for the fatal-error statements *)
(* ===================================================================== *)

Module Dialogs.
Import FatalError.







End Dialogs.

(* ===================================================================== *)
(** ** [createWindow]: what is handed to the API server *)
(* ===================================================================== *)

Module ServerStart.
Import NodePath Environment.

(** Electron's [app], as far as [createWindow] reads it:
    [app.isPackaged] and [app.getPath('userData')]. *)
Record App : Type := {
  isPackaged : bool;
  userData : string
}.

(** The [git] member of the server configuration. *)
Record GitConfig : Type := {
  cloneUrl : string;
  url : string;
  owner : string;
  repositoryName : string
}.

(** The first argument of [localServer.start], lines 208-220. *)
Record ServerConfig : Type := {
  git : GitConfig;
  firmwaresPath : string;
  getPlatformioPath : string;
  platformioStateTempStoragePath : string;
  PATH : string;
  serverEnv : gmap string string
}.

(** [localApiServerEnv] is [process.env] itself, not a copy: the
    assignment of [PLATFORMIO_INSTALLER_TMPDIR] (line 206) is an
    assignment to the environment of the process. *)
Definition setInstallerTmpdir (app : App) (process : Process) : Process :=
  {| platform := platform process;
     env := <["PLATFORMIO_INSTALLER_TMPDIR" := userData app]> (env process) |}.

(** Lines 156-220 on the path where the awaited calls resolve: the
    configuration passed to [localServer.start] and the process as the
    assignment leaves it.  [join3] is [path.join] at three arguments
    (line 156); [resourcesPath] is [process.resourcesPath] and [dirname]
    is [__dirname]. *)
Definition serverStartArguments (path : PathModule)
    (join3 : string -> string -> string -> string)
    (app : App) (process : Process) (resourcesPath dirname : string)
    : ServerConfig * Process :=
  let firmwaresPath := join3 (userData app) "firmwares" "git" in
  let dependenciesPath :=
    dependenciesPath path (isPackaged app) resourcesPath dirname in
  let getPlatformioPath := join path dependenciesPath "get-platformio.py" in
  let platformioStateTempStoragePath :=
    join path (userData app) "platformio-temp-state-storage" in
  let PATH := resolvePATH path process dependenciesPath in
  let process' := setInstallerTmpdir app process in
  let localApiServerEnv := env process' in
  ({| git :=
        {| cloneUrl := "https://github.com/AlessandroAU/ExpressLRS";
           url := "https://github.com/AlessandroAU/ExpressLRS";
           owner := "AlessandroAU";
           repositoryName := "ExpressLRS" |};
      firmwaresPath := firmwaresPath;
      getPlatformioPath := getPlatformioPath;
      platformioStateTempStoragePath := platformioStateTempStoragePath;
      PATH := PATH;
      serverEnv := localApiServerEnv |},
   process').

(** [path.join] at three arguments for the concrete path modules: the
    non-empty arguments joined with the separator, then normalised. *)
Definition join3_with (sep : ascii) (isPathSeparator : ascii -> bool)
    (a b c : string) : string :=
  let glue (joined arg : string) : string :=
    match arg, joined with
    | EmptyString, _ => joined
    | _, EmptyString => arg
    | _, _ => joined ++ String sep arg
    end in
  match glue (glue (glue "" a) b) c with
  | EmptyString => "."
  | joined => normalize sep isPathSeparator joined
  end.

Definition posix_join3 : string -> string -> string -> string :=
  join3_with "/" (fun c => Ascii.eqb c "/").

Definition win32_join3 : string -> string -> string -> string :=
  fun a b c => win32_joinAll [a; b; c].

End ServerStart.

(* ===================================================================== *)
(** ** Application and window event handlers *)
(* ===================================================================== *)

Module AppEvents.

(** A JavaScript value read from [process.env] used as a condition: a
    missing variable and the empty string are falsy, every other string
    is truthy. *)
Definition truthy (v : option string) : bool :=
  match v with
  | Some (String _ _) => true
  | _ => false
  end.

(** What the [window-all-closed] handler does to the application. *)
Inductive AppEffect : Type :=
| ServerStop
| AppQuit.

(** [app.on('window-all-closed', ...)], lines 281-288: the comparison is
    with the whole identifier, not with a prefix of it. *)
Definition onWindowAllClosed (platform : string) : list AppEffect :=
  if negb (String.eqb platform "darwin") then [ServerStop; AppQuit] else [].

(** Methods that the [did-finish-load] handler calls on a window. *)
Inductive WindowCall : Type :=
| Minimize
| Show
| Focus.

Definition doubleQuote : string := String (ascii_of_nat 34) "".

(** The message of the error thrown at line 248. *)
Definition mainWindowNotDefined : string :=
  doubleQuote ++ "mainWindow" ++ doubleQuote ++ " is not defined".

Section Windows.
(** Window objects. *)
Variable BrowserWindow : Type.

(** The [did-finish-load] handler, lines 246-257.  It reads the module
    variable [mainWindow] when it runs, whichever window it was
    registered on: the result is the thrown message, or the calls made,
    each with the window it is made on. *)
Definition onDidFinishLoad (mainWindow : option BrowserWindow)
    (env : gmap string string)
    : string + list (BrowserWindow * WindowCall) :=
  match mainWindow with
  | None => inl mainWindowNotDefined
  | Some w =>
      if truthy (env !! "START_MINIMIZED") then inr [(w, Minimize)]
      else inr [(w, Show); (w, Focus)]
  end.

(** The [closed] handler, lines 259-261: the new value of [mainWindow]. *)
Definition onClosed (mainWindow : option BrowserWindow)
    : option BrowserWindow :=
  None.

(** The [activate] handler, lines 298-304: whether [createWindow] is
    called. *)
Definition onActivate (mainWindow : option BrowserWindow) : bool :=
  match mainWindow with
  | None => true
  | Some _ => false
  end.
End Windows.

End AppEvents.

(* ===================================================================== *)
(** ** Debugging aids: source maps, electron-debug, devtools extensions *)
(* ===================================================================== *)

Module DevTools.
Import AppEvents.

(** Lines 106-109: [process.env.NODE_ENV === 'production']. *)
Definition sourceMapSupport (env : gmap string string) : bool :=
  bool_decide (env !! "NODE_ENV" = Some "production").

(** Lines 111-114 and 136-139: the condition under which
    [electron-debug] is loaded and [installExtensions] is awaited. *)
Definition debugMode (env : gmap string string) : bool :=
  bool_decide (env !! "NODE_ENV" = Some "development")
  || bool_decide (env !! "DEBUG_PROD" = Some "true").

(** How the call [installer.default(...)] ends: it (or the [require]
    before it) throws, or it returns a promise that is fulfilled or
    rejected. *)
Inductive InstallerCall : Type :=
| CallThrows (err : FatalError.ErrorObject)
| CallFulfilled
| CallRejected (err : FatalError.ErrorObject).

(** How an [async] function ends. *)
Inductive Outcome : Type :=
| Resolves
| RejectsWith (err : FatalError.ErrorObject).

(** [installExtensions], lines 120-133: the outcome of the promise it
    returns and the errors given to [logger.error]. *)
Definition installExtensions (call : InstallerCall)
    : Outcome * list FatalError.ErrorObject :=
  match call with
  | CallThrows err => (RejectsWith err, [])
  | CallFulfilled => (Resolves, [])
  | CallRejected err => (Resolves, [err])
  end.

(** The first statement of [createWindow], lines 136-141: whether the
    installer is called at all, how this step ends and what it logs.
    [call] is how the installer would behave. *)
Definition createWindowInstallStep (env : gmap string string)
    (call : InstallerCall) : bool * Outcome * list FatalError.ErrorObject :=
  if debugMode env then
    let '(outcome, logged) := installExtensions call in
    (true, outcome, logged)
  else (false, Resolves, []).

End DevTools.

(* ===================================================================== *)
(** ** The [Loader] component *)
(* ===================================================================== *)

Module Loader.

(** Values of style properties. *)
Inductive StyleValue : Type :=
| StyleNumber (n : Z)
| StyleString (s : string).

(** [styles.root], lines 5-11.  Style objects ([SxProps] in its object
    form) are maps from property names to values. *)
Definition styles_root : gmap string StyleValue :=
  {[ "marginBottom" := StyleNumber 3;
     "display" := StyleString "flex";
     "justifyContent" := StyleString "space-evenly" ]}.

(** Object spread, [{ ...a, ...b }]: the properties of both, those of
    [b] winning. *)
Definition spread (a b : gmap string StyleValue) : gmap string StyleValue :=
  b ∪ a.

(** The rendered elements. *)
#[warnings="-register-all"]
Inductive Element : Type :=
| Box (sx : gmap string StyleValue) (children : list Element)
| CircularProgress.

Record LoaderProps : Type := {
  loading : bool;
  sx : option (gmap string StyleValue)
}.

(** [Loader], lines 18-24; [None] is a rendered [null], and a missing
    [sx] takes the default [{}]. *)
Definition Loader (props : LoaderProps) : option Element :=
  let sx := default ∅ (sx props) in
  if loading props then
    Some (Box (spread styles_root sx) [CircularProgress])
  else None.

End Loader.

(* ===================================================================== *)
(** ** The PATH composition as a program that asks for what it reads *)
(* ===================================================================== *)

Module Reads.
Import NodePath Environment.

(** What the code of [createWindow] around the PATH composition asks
    of the process it runs in: reading and assigning a variable of
    [process.env], reading [process.platform], creating a directory
    ([mkdirp], line 204) and writing to the log (lines 151-155, 224). *)
Inductive Request : Type :=
| ReadEnv (name : string)
| ReadPlatform
| WriteEnv (name value : string)
| Mkdirp (dir : string)
| LoggerLog (msg : string).

Definition Answer (r : Request) : Type :=
  match r with
  | ReadEnv _ => option string
  | ReadPlatform => string
  | WriteEnv _ _ | Mkdirp _ | LoggerLog _ => unit
  end.

(** A computation: a result, or a request and what is done with its
    answer. *)
Inductive Prog (A : Type) : Type :=
| Ret (a : A)
| Ask (r : Request) (k : Answer r -> Prog A).
Arguments Ret {A} a.
Arguments Ask {A} r k.

Fixpoint bind {A B : Type} (p : Prog A) (f : A -> Prog B) : Prog B :=
  match p with
  | Ret a => f a
  | Ask r k => Ask r (fun answer => bind (k answer) f)
  end.

#[export] Instance prog_ret : MRet Prog := @Ret.
#[export] Instance prog_bind : MBind Prog := fun A B f p => bind p f.

Definition ask (r : Request) : Prog (Answer r) := Ask r Ret.

(** Lines 170-202 once more, with every read of [process] as a request,
    in the order of the source: [process.env.PATH] (line 170), then
    [process.platform] twice (lines 177 and 178). *)
Definition resolvePATH_prog (path : PathModule) (dependenciesPath : string)
    : Prog string :=
  envPATH ← ask (ReadEnv "PATH");
  let PATH := default "" envPATH in
  platform1 ← ask ReadPlatform;
  let isWindows := startsWith platform1 "win" in
  platform2 ← ask ReadPlatform;
  let isMacOS := startsWith platform2 "darwin" in
  let PATH :=
    if isWindows then
      let portablePythonLocation :=
        join path dependenciesPath
          "windows_amd64/python-portable-windows_amd64-3.7.7" in
      let portableGitLocation :=
        join path dependenciesPath "windows_amd64/PortableGit/bin" in
      let PATH := prependPATH path PATH portablePythonLocation in
      prependPATH path PATH portableGitLocation
    else PATH in
  let PATH :=
    if isMacOS then
      let portablePythonLocation :=
        join path dependenciesPath
          "darwin_amd64/python-portable-darwin-3.8.4/bin" in
      let portableGitLocation :=
        join path dependenciesPath "darwin_amd64/git/2.30.1/bin" in
      let PATH := prependPATH path PATH portablePythonLocation in
      prependPATH path PATH portableGitLocation
    else PATH in
  mret PATH.

(** One request served by a process: the answer and the process
    afterwards.  Only an assignment changes the process; directories
    and the log are outside of it. *)
Definition serve (r : Request) (process : Process) : Answer r * Process :=
  match r return Answer r * Process with
  | ReadEnv name => (env process !! name, process)
  | ReadPlatform => (platform process, process)
  | WriteEnv name value =>
      (tt, {| platform := platform process;
              env := <[name := value]> (env process) |})
  | Mkdirp _ => (tt, process)
  | LoggerLog _ => (tt, process)
  end.

(** A run: the result, the requests made in order, and the process at
    the end. *)
Fixpoint run {A : Type} (p : Prog A) (process : Process)
    : A * list Request * Process :=
  match p with
  | Ret a => (a, [], process)
  | Ask r k =>
      let '(answer, process') := serve r process in
      let '(a, requests, final) := run (k answer) process' in
      (a, r :: requests, final)
  end.

End Reads.

(* ===================================================================== *)
(** ** [process.env] as a shared object *)
(* ===================================================================== *)

Module SharedEnv.
Import NodePath Environment ServerStart.

(** Objects live in a heap and are held by reference (a heap address):
    [process.env] is one object, and a variable or a field that is
    assigned [process.env] holds its reference, not a copy. *)
Record ProcessRef : Type := {
  platformOf : string;
  envRef : nat
}.

(** The first argument of [localServer.start] with its [env] member as
    the reference it is. *)
Record ServerConfigRef : Type := {
  gitOf : GitConfig;
  firmwaresPathOf : string;
  getPlatformioPathOf : string;
  platformioStateTempStoragePathOf : string;
  PATHOf : string;
  serverEnvRef : nat
}.

(** The object behind a reference. *)
Definition object (heap : gmap nat (gmap string string)) (r : nat)
    : gmap string string :=
  default ∅ (heap !! r).

(** [obj.name = value] on the object behind [r]. *)
Definition assign (heap : gmap nat (gmap string string)) (r : nat)
    (name value : string) : gmap nat (gmap string string) :=
  <[r := <[name := value]> (object heap r)]> heap.

(** The process as the PATH composition reads it. *)
Definition processIn (heap : gmap nat (gmap string string))
    (process : ProcessRef) : Process :=
  {| platform := platformOf process;
     env := object heap (envRef process) |}.

(** Lines 156-220 again, on the heap: line 205 copies the reference
    [process.env] into [localApiServerEnv], line 206 assigns through
    it, and line 219 stores it in the configuration. *)
Definition serverStartArgumentsRef (path : PathModule)
    (join3 : string -> string -> string -> string)
    (app : App) (process : ProcessRef) (resourcesPath dirname : string)
    (heap : gmap nat (gmap string string))
    : ServerConfigRef * gmap nat (gmap string string) :=
  let firmwaresPath := join3 (userData app) "firmwares" "git" in
  let dependenciesPath :=
    dependenciesPath path (isPackaged app) resourcesPath dirname in
  let getPlatformioPath := join path dependenciesPath "get-platformio.py" in
  let platformioStateTempStoragePath :=
    join path (userData app) "platformio-temp-state-storage" in
  let PATH := resolvePATH path (processIn heap process) dependenciesPath in
  let localApiServerEnv := envRef process in
  let heap' :=
    assign heap localApiServerEnv "PLATFORMIO_INSTALLER_TMPDIR"
      (userData app) in
  ({| gitOf :=
        {| cloneUrl := "https://github.com/AlessandroAU/ExpressLRS";
           url := "https://github.com/AlessandroAU/ExpressLRS";
           owner := "AlessandroAU";
           repositoryName := "ExpressLRS" |};
      firmwaresPathOf := firmwaresPath;
      getPlatformioPathOf := getPlatformioPath;
      platformioStateTempStoragePathOf := platformioStateTempStoragePath;
      PATHOf := PATH;
      serverEnvRef := localApiServerEnv |},
   heap').

(** The configuration with the object behind its [env] reference read
    out of a heap. *)
Definition configIn (heap : gmap nat (gmap string string))
    (config : ServerConfigRef) : ServerConfig :=
  {| git := gitOf config;
     firmwaresPath := firmwaresPathOf config;
     getPlatformioPath := getPlatformioPathOf config;
     platformioStateTempStoragePath :=
       platformioStateTempStoragePathOf config;
     PATH := PATHOf config;
     serverEnv := object heap (serverEnvRef config) |}.

End SharedEnv.

(* ===================================================================== *)
(** ** More sample values *)
(* ===================================================================== *)

Module MoreSamples.
Import NodePath Environment ServerStart Loader Samples.

Definition packagedApp : App :=
  {| isPackaged := true;
     userData := "/Users/pilot/Library/Application Support/ExpressLRS" |}.

Definition windowsApp : App :=
  {| isPackaged := true;
     userData := "C:\Users\pilot\AppData\Roaming\ExpressLRS" |}.

Definition minimizedEnv : gmap string string :=
  {[ "START_MINIMIZED" := "false"; "PATH" := "/usr/bin" ]}.

Definition debugProdEnv : gmap string string :=
  {[ "NODE_ENV" := "production"; "DEBUG_PROD" := "true" ]}.

(** A heap with the environment of [macProcess] at address 1 and
    another object at address 2. *)
Definition sampleHeap : gmap nat (gmap string string) :=
  {[ 1%nat := env macProcess; 2%nat := {[ "unrelated" := "object" ]} ]}.

Definition macProcessRef : SharedEnv.ProcessRef :=
  {| SharedEnv.platformOf := "darwin"; SharedEnv.envRef := 1%nat |}.

Definition callerSx : gmap string StyleValue :=
  {[ "marginBottom" := StyleNumber 0; "color" := StyleString "red" ]}.

End MoreSamples.

(* ===================================================================== *)
(** * Properties *)
(* ===================================================================== *)

(** ** The result object *)

Section ResultObject.
Import BuildFlashFirmwareResult.

(** C8: the constructor assigns each argument to the field of the same
    name; [message] and [errorType] are not transposed although the
    parameter order differs from the order in which the fields are
    declared. *)
Theorem constructor_assigns_fields :
  forall (s : bool) (m : option string)
         (e : option BuildFirmwareErrorType) (f : option string),
    let r := constructor s m e f in
    success r = s /\ message r = m /\ errorType r = e /\
    firmwareBinPath r = f.
Proof. intros s m e f r. subst r. repeat split. Qed.

(** C6: [firmwareBinPath] is independent of the success flag: a result
    with [success == false] and a present [firmwareBinPath] exists, and
    the constructor keeps every combination of flag and path as it was
    given, whatever the message and error type. *)
Theorem firmwareBinPath_independent_of_success :
  (exists r : t, success r = false /\ is_Some (firmwareBinPath r)) /\
  (forall (s : bool) (m : option string)
          (e : option BuildFirmwareErrorType) (f : option string),
      success (constructor s m e f) = s /\
      firmwareBinPath (constructor s m e f) = f) /\
  (forall (p : string) (m : option string)
          (e : option BuildFirmwareErrorType),
      success (constructor false m e (Some p)) = false /\
      firmwareBinPath (constructor false m e (Some p)) = Some p).
Proof.
  split; [| split].
  - exists (constructor false (Some "device not found") (Some DeviceNotFound)
              (Some "firmware.bin")).
    split; [reflexivity | eexists; reflexivity].
  - intros; split; reflexivity.
  - intros; split; reflexivity.
Qed.

(** C1 (as amended): the constructor stores [success] and [errorType] as
    they are given, so the constructed result satisfies
    "[success == true] iff [errorType] is absent" exactly when the
    arguments of the call do; the constructor itself does not enforce
    it. *)
Theorem constructor_invariant_iff_arguments :
  forall (s : bool) (m : option string)
         (e : option BuildFirmwareErrorType) (f : option string),
    success_iff_no_error (constructor s m e f) <-> (s = true <-> e = None).
Proof. intros s m e f. unfold success_iff_no_error. simpl. tauto. Qed.

(** C1, refuted as stated: [new BuildFlashFirmwareResult(true, undefined,
    UnknownBuildError)] has [success == true] and a present [errorType],
    and [new BuildFlashFirmwareResult(false)] has [success == false] and
    no [errorType]. *)
Lemma constructor_invariant_counterexample :
  ~ success_iff_no_error (constructor true None (Some UnknownBuildError) None)
  /\ ~ success_iff_no_error (constructor false None None None).
Proof.
  unfold success_iff_no_error; simpl; split; intros [H1 H2].
  - specialize (H1 eq_refl). discriminate H1.
  - specialize (H2 eq_refl). discriminate H2.
Qed.

End ResultObject.

(** ** PATH composition *)

Import NodePath Environment.

Section StringFacts.

Lemma length_pos_false (s : string) :
  (0 <? String.length s)%nat = false <-> s = "".
Proof.
  destruct s as [| c s]; simpl; split; intro H;
    try reflexivity; discriminate H.
Qed.

Lemma length_pos_true (s : string) :
  s <> "" -> (0 <? String.length s)%nat = true.
Proof. destruct s as [| c s]; [congruence | reflexivity]. Qed.

Lemma prefix_cons (a b : ascii) (s1 s2 : string) :
  String.prefix (String a s1) (String b s2) =
  if ascii_dec a b then String.prefix s1 s2 else false.
Proof. reflexivity. Qed.

Lemma append_nil (b : string) : "" ++ b = b.
Proof. reflexivity. Qed.

Lemma append_cons (c : ascii) (a b : string) :
  String c a ++ b = String c (a ++ b).
Proof. reflexivity. Qed.

Lemma prefix_append (a b : string) : String.prefix a (a ++ b) = true.
Proof.
  induction a as [| c a IH].
  - rewrite append_nil. destruct b; reflexivity.
  - rewrite append_cons, prefix_cons.
    destruct (ascii_dec c c) as [_ | Hne]; [exact IH | congruence].
Qed.

Lemma append_empty_r (a : string) : a ++ "" = a.
Proof.
  induction a as [| c a IH]; [reflexivity | now rewrite append_cons, IH].
Qed.

Lemma append_empty_inv (a b : string) : a ++ b = "" -> a = "" /\ b = "".
Proof.
  destruct a as [| c a]; [rewrite append_nil; auto |].
  rewrite append_cons. discriminate.
Qed.

(** No platform identifier starts with both ["win"] and ["darwin"]. *)
Lemma win_excludes_darwin (p : string) :
  startsWith p "win" = true -> startsWith p "darwin" = false.
Proof.
  unfold startsWith. destruct p as [| c p]; [discriminate |].
  rewrite !prefix_cons.
  destruct (ascii_dec "w" c) as [<- | _]; [| discriminate].
  intros _. destruct (ascii_dec "d" "w") as [E | _];
    [discriminate E | reflexivity].
Qed.

Lemma entries_not_nil (d : ascii) (s : string) : entries d s <> [].
Proof.
  destruct s as [| c s]; simpl; [discriminate |].
  destruct (Ascii.eqb c d); [discriminate |].
  destruct (entries d s); discriminate.
Qed.

(** Splitting distributes over a delimiter-separated concatenation. *)
Lemma entries_append (d : ascii) (a b : string) :
  entries d (a ++ String d b) = (entries d a ++ entries d b)%list.
Proof.
  induction a as [| c a IH].
  - rewrite append_nil. simpl. now rewrite Ascii.eqb_refl.
  - rewrite append_cons. simpl. rewrite IH.
    destruct (Ascii.eqb c d); [reflexivity |].
    pose proof (entries_not_nil d a) as Hne.
    destruct (entries d a); [congruence | reflexivity].
Qed.

End StringFacts.

(** *** [path.join] never gives the empty string *)

Section JoinNeverEmpty.

Lemma append_nonempty_l (a b : string) : a <> "" -> a ++ b <> "".
Proof. intros Ha H. apply append_empty_inv in H as [H _]. exact (Ha H). Qed.

Lemma append_nonempty_r (a b : string) : b <> "" -> a ++ b <> "".
Proof. intros Hb H. apply append_empty_inv in H as [_ H]. exact (Hb H). Qed.

Lemma normalize_nonempty (sep : ascii) (isPathSeparator : ascii -> bool)
    (p : string) :
  normalize sep isPathSeparator p <> "".
Proof.
  unfold normalize.
  destruct (unsegments sep _) as [| c body];
    destruct (startsWithSeparator isPathSeparator p);
    destruct (endsWithSeparator isPathSeparator p);
    try discriminate;
    try (apply append_nonempty_l; discriminate).
Qed.

Lemma join_with_nonempty (sep : ascii) (isPathSeparator : ascii -> bool)
    (a b : string) :
  join_with sep isPathSeparator a b <> "".
Proof.
  unfold join_with.
  destruct (match a with
            | EmptyString => b
            | String _ _ =>
                match b with
                | EmptyString => a
                | String _ _ => a ++ String sep b
                end
            end); [discriminate | apply normalize_nonempty].
Qed.

Lemma win32_finish_nonempty (device : option string) (isAbsolute : bool)
    (rest path : string) :
  (forall d, device = Some d -> d <> "") ->
  win32_finish device isAbsolute rest path <> "".
Proof.
  intro Hd. unfold win32_finish.
  set (tail0 := match rest with
                | EmptyString => ""
                | String _ _ => unsegments "\" _
                end).
  assert (isAbsolute = false ->
          match
            match tail0 with
            | EmptyString => if isAbsolute then "" else "."
            | String _ _ => tail0
            end
          with
          | EmptyString => ""
          | String _ _ =>
              if endsWithSeparator isWin32Separator path
              then match tail0 with
                   | EmptyString => if isAbsolute then "" else "."
                   | String _ _ => tail0
                   end ++ "\"
              else match tail0 with
                   | EmptyString => if isAbsolute then "" else "."
                   | String _ _ => tail0
                   end
          end <> "") as Htail.
  { intros ->. destruct tail0 as [| c t];
      destruct (endsWithSeparator isWin32Separator path);
      try discriminate; apply append_nonempty_l; discriminate. }
  destruct device as [d |]; destruct isAbsolute.
  - apply append_nonempty_l. now apply Hd.
  - apply append_nonempty_l. now apply Hd.
  - discriminate.
  - now apply Htail.
Qed.

Lemma win32_normalize_nonempty (p : string) : win32_normalize p <> "".
Proof.
  unfold win32_normalize.
  destruct p as [| c0 [| c1 rest]]; [discriminate | |].
  - destruct (Ascii.eqb c0 "/"); discriminate.
  - destruct (isWin32Separator c0).
    + destruct (isWin32Separator c1).
      * destruct (takeSegment rest) as [[| f fs] [| r rs]];
          try (apply win32_finish_nonempty; discriminate).
        destruct (dropSeparators (String r rs)) as [| x xs];
          [apply win32_finish_nonempty; discriminate |].
        destruct (takeSegment (String x xs)) as [second [| y ys]].
        -- apply append_nonempty_l. discriminate.
        -- apply win32_finish_nonempty. intros d [= <-].
           apply append_nonempty_l. discriminate.
      * apply win32_finish_nonempty. discriminate.
    + destruct (isWindowsDeviceRoot c0 && Ascii.eqb c1 ":").
      * destruct rest as [| c2 rest'];
          [| destruct (isWin32Separator c2)];
          apply win32_finish_nonempty; intros d [= <-]; discriminate.
      * apply win32_finish_nonempty. discriminate.
Qed.

Lemma win32_joinAll_nonempty (paths : list string) :
  win32_joinAll paths <> "".
Proof.
  unfold win32_joinAll.
  destruct (List.filter _ paths) as [| firstPart others]; [discriminate |].
  apply win32_normalize_nonempty.
Qed.

(** Both concrete path modules never join to the empty string, as Node
    documents of [path.join]. *)
Lemma concrete_join_nonempty (a b : string) :
  join posix a b <> "" /\ join win32 a b <> "".
Proof.
  split; [apply join_with_nonempty | apply win32_joinAll_nonempty].
Qed.

End JoinNeverEmpty.

Section PathComposition.
Variable path : PathModule.

Lemma prependPATH_empty (item : string) : prependPATH path "" item = item.
Proof. reflexivity. Qed.

Lemma prependPATH_cons (pth item : string) :
  pth <> "" -> prependPATH path pth item = item ++ String (delimiter path) pth.
Proof. intro H. unfold prependPATH. now rewrite (length_pos_true pth H). Qed.

(** What the two sequential [if]s amount to. *)
Lemma resolvePATH_cases (process : Process) (deps : string) :
  resolvePATH path process deps =
  match portableLocations path (platform process) deps with
  | Some (py, git) =>
      prependPATH path (prependPATH path (inheritedPATH process) py) git
  | None => inheritedPATH process
  end.
Proof.
  unfold resolvePATH, portableLocations.
  destruct (startsWith (platform process) "win") eqn:Hw.
  - now rewrite (win_excludes_darwin _ Hw).
  - destruct (startsWith (platform process) "darwin"); reflexivity.
Qed.

(** C5: for a non-empty existing PATH [pth], prepending [item] gives
    exactly [item], then the path module's delimiter character, then
    [pth] unchanged. *)
Theorem prependPATH_nonempty (pth item : string) :
  pth <> "" ->
  prependPATH path pth item = item ++ String (delimiter path) pth.
Proof. apply prependPATH_cons. Qed.

(** The result of [prependPATH] on arbitrary strings: with an empty
    existing PATH it is the item alone; it always begins with the item;
    and it is empty only when both the item and the existing PATH are
    empty. *)
Lemma prependPATH_result (pth item : string) :
  prependPATH path "" item = item /\
  String.prefix item (prependPATH path pth item) = true /\
  (prependPATH path pth item = "" <-> pth = "" /\ item = "").
Proof.
  split; [reflexivity | split].
  - unfold prependPATH. destruct (0 <? String.length pth)%nat.
    + apply prefix_append.
    + rewrite <- (append_empty_r item) at 2. apply prefix_append.
  - destruct pth as [| c pth]; simpl.
    + rewrite prependPATH_empty. tauto.
    + rewrite prependPATH_cons by discriminate. split.
      * intro H. apply append_empty_inv in H as [_ H]. discriminate H.
      * intros [H _]. discriminate H.
Qed.

(** C9: [prependPATH] is only ever called with an item that is a
    [path.join] result, which is never empty.  For such an item: with an
    empty existing PATH the result is the item alone, with no delimiter
    before or after it; and for every existing PATH the result is
    non-empty and begins with the item. *)
Theorem prependPATH_nonempty_item (pth item : string) :
  item <> "" ->
  prependPATH path "" item = item /\
  prependPATH path pth item <> "" /\
  String.prefix item (prependPATH path pth item) = true.
Proof.
  intro Hitem.
  destruct (prependPATH_result pth item) as (Hempty & Hprefix & Hnil).
  split; [exact Hempty | split; [| exact Hprefix]].
  intro H. apply Hnil in H as [_ H]. exact (Hitem H).
Qed.

(** C3: on a platform whose identifier starts with neither ["win"] nor
    ["darwin"], the resolved PATH is the inherited one ([process.env.PATH
    ?? '']), unmodified. *)
Theorem resolvePATH_unrecognized (process : Process) (deps : string) :
  startsWith (platform process) "win" = false ->
  startsWith (platform process) "darwin" = false ->
  resolvePATH path process deps = inheritedPATH process /\
  (forall p : string,
      env process !! "PATH" = Some p -> resolvePATH path process deps = p).
Proof.
  intros Hw Hd.
  assert (resolvePATH path process deps = inheritedPATH process) as E.
  { unfold resolvePATH. now rewrite Hw, Hd. }
  split; [exact E |].
  intros p Hp. rewrite E. unfold inheritedPATH. now rewrite Hp.
Qed.

(** C2 (as amended): on a recognized platform the resolved PATH is the
    portable Git location, the delimiter, the portable Python location
    and then, after one more delimiter, the inherited PATH (nothing
    more when the inherited PATH is empty).  Both portable directories
    precede every inherited entry; the Git location, prepended last,
    comes first. *)
Theorem resolvePATH_recognized (process : Process) (deps py git : string) :
  portableLocations path (platform process) deps = Some (py, git) ->
  py <> "" ->
  let d := delimiter path in
  let inherited := inheritedPATH process in
  resolvePATH path process deps =
    git ++ String d py ++
      match inherited with
      | EmptyString => ""
      | _ => String d inherited
      end
  /\ entries d (resolvePATH path process deps) =
       (entries d git ++ entries d py ++
          match inherited with
          | EmptyString => []
          | _ => entries d inherited
          end)%list.
Proof.
  intros Hloc Hpy d inherited.
  assert (resolvePATH path process deps =
          git ++ String d py ++
            match inherited with
            | EmptyString => ""
            | _ => String d inherited
            end) as E.
  { rewrite resolvePATH_cases, Hloc. fold inherited.
    destruct inherited as [| c rest] eqn:Hin.
    - rewrite prependPATH_empty, prependPATH_cons by exact Hpy.
      fold d. now rewrite append_empty_r.
    - rewrite (prependPATH_cons (String c rest) py) by discriminate.
      rewrite prependPATH_cons.
      + fold d. f_equal.
      + intro H. apply append_empty_inv in H as [_ H]. discriminate H. }
  split; [exact E |].
  rewrite E, append_cons, entries_append. f_equal.
  destruct inherited as [| c rest].
  - now rewrite append_empty_r, app_nil_r.
  - apply entries_append.
Qed.

(** The resolved PATH depends on the process only through its platform
    identifier and its [PATH] variable. *)
Lemma resolvePATH_deterministic (p1 p2 : Process) (deps : string) :
  platform p1 = platform p2 ->
  env p1 !! "PATH" = env p2 !! "PATH" ->
  resolvePATH path p1 deps = resolvePATH path p2 deps.
Proof.
  intros Hp He. unfold resolvePATH, inheritedPATH. now rewrite Hp, He.
Qed.

(** C10: when the environment has no [PATH] variable the inherited PATH
    counts as the empty string: on an unrecognized platform the
    resolved PATH is empty, and on a recognized one it is the portable
    Git location followed, after one delimiter, by the portable Python
    location, and nothing else. *)
Theorem resolvePATH_without_PATH (process : Process) (deps : string) :
  env process !! "PATH" = None ->
  inheritedPATH process = "" /\
  match portableLocations path (platform process) deps with
  | None => resolvePATH path process deps = ""
  | Some (py, git) =>
      resolvePATH path process deps =
        match py with
        | EmptyString => git
        | _ => git ++ String (delimiter path) py
        end
  end.
Proof.
  intro Hnone.
  assert (inheritedPATH process = "") as E.
  { unfold inheritedPATH. now rewrite Hnone. }
  split; [exact E |].
  rewrite resolvePATH_cases, E.
  destruct (portableLocations path (platform process) deps) as [[py git] |];
    [| reflexivity].
  rewrite prependPATH_empty.
  destruct py as [| c py]; [reflexivity |].
  now rewrite prependPATH_cons by discriminate.
Qed.

(** A run of the composition: its result is [resolvePATH], it asks
    for [process.env.PATH] once and for [process.platform] twice, and it
    leaves the process as it was. *)
Lemma run_resolvePATH_prog (process : Process) (deps : string) :
  Reads.run (Reads.resolvePATH_prog path deps) process =
  (resolvePATH path process deps,
   [Reads.ReadEnv "PATH"; Reads.ReadPlatform; Reads.ReadPlatform],
   process).
Proof. reflexivity. Qed.

(** C7: two runs of the PATH composition, for the same dependencies
    path, in processes with the same platform identifier and the same
    inherited [PATH], give the same string, whatever else the two
    environments hold.  All that a run asks of its process is
    [process.env.PATH], once, and [process.platform]: it assigns no
    variable, creates no directory and writes no log, and the process is
    afterwards as it was before.  The string is the one that
    [resolvePATH] computes. *)
Theorem resolvePATH_reads_only_platform_and_PATH (p1 p2 : Process)
    (deps : string) :
  platform p1 = platform p2 ->
  env p1 !! "PATH" = env p2 !! "PATH" ->
  let r1 := Reads.run (Reads.resolvePATH_prog path deps) p1 in
  let r2 := Reads.run (Reads.resolvePATH_prog path deps) p2 in
  fst (fst r1) = fst (fst r2) /\
  fst (fst r1) = resolvePATH path p1 deps /\
  snd (fst r1) = [Reads.ReadEnv "PATH"; Reads.ReadPlatform; Reads.ReadPlatform] /\
  snd (fst r2) = snd (fst r1) /\
  snd r1 = p1 /\ snd r2 = p2.
Proof.
  intros Hp He r1 r2. subst r1 r2. rewrite !run_resolvePATH_prog. cbn [fst snd].
  split; [| repeat split].
  exact (resolvePATH_deterministic p1 p2 deps Hp He).
Qed.

End PathComposition.

(** *** The composition on sample processes *)

Section PathCompositionSamples.
Import Samples.

Example windowsDependencies_value :
  windowsDependencies = "C:\Program Files\ExpressLRS\dependencies".
Proof. reflexivity. Qed.

Example resolvePATH_windows :
  resolvePATH win32 windowsProcess windowsDependencies =
  "C:\Program Files\ExpressLRS\dependencies\windows_amd64\PortableGit\bin;C:\Program Files\ExpressLRS\dependencies\windows_amd64\python-portable-windows_amd64-3.7.7;C:\Windows;C:\Windows\System32".
Proof. vm_compute. reflexivity. Qed.

Example entries_windows :
  entries ";" (resolvePATH win32 windowsProcess windowsDependencies) =
  [ "C:\Program Files\ExpressLRS\dependencies\windows_amd64\PortableGit\bin";
    "C:\Program Files\ExpressLRS\dependencies\windows_amd64\python-portable-windows_amd64-3.7.7";
    "C:\Windows"; "C:\Windows\System32" ].
Proof. vm_compute. reflexivity. Qed.

Lemma prependPATH_nonempty_witness :
  "C:\Windows" <> "" /\
  prependPATH win32 "C:\Windows" "C:\deps\PortableGit\bin" =
    "C:\deps\PortableGit\bin;C:\Windows" /\
  prependPATH posix "/usr/bin:/bin" "/deps/git/bin" =
    "/deps/git/bin:/usr/bin:/bin".
Proof.
  split; [discriminate | split].
  - apply (prependPATH_nonempty win32 "C:\Windows" "C:\deps\PortableGit\bin").
    discriminate.
  - apply (prependPATH_nonempty posix "/usr/bin:/bin" "/deps/git/bin").
    discriminate.
Defined.

Lemma prependPATH_nonempty_item_witness :
  join posix "/deps" "darwin_amd64/git/2.30.1/bin" <> "" /\
  prependPATH posix "" (join posix "/deps" "darwin_amd64/git/2.30.1/bin")
    = "/deps/darwin_amd64/git/2.30.1/bin" /\
  prependPATH posix "/usr/bin:/bin"
    (join posix "/deps" "darwin_amd64/git/2.30.1/bin") <> "" /\
  String.prefix (join posix "/deps" "darwin_amd64/git/2.30.1/bin")
    (prependPATH posix "/usr/bin:/bin"
       (join posix "/deps" "darwin_amd64/git/2.30.1/bin")) = true.
Proof.
  assert (join posix "/deps" "darwin_amd64/git/2.30.1/bin" <> "") as Hitem.
  { intro H. vm_compute in H. discriminate H. }
  split; [exact Hitem |].
  exact (prependPATH_nonempty_item posix "/usr/bin:/bin"
           (join posix "/deps" "darwin_amd64/git/2.30.1/bin") Hitem).
Defined.

(** On strings that are not [path.join] results: the empty item
    prepended to the empty PATH gives the empty string. *)
Example prependPATH_empty_item : prependPATH posix "" "" = "".
Proof. reflexivity. Qed.

Lemma resolvePATH_unrecognized_witness :
  startsWith (platform linuxProcess) "win" = false /\
  startsWith (platform linuxProcess) "darwin" = false /\
  resolvePATH posix linuxProcess "/opt/ExpressLRS/dependencies"
    = "/usr/local/bin:/usr/bin".
Proof.
  split; [reflexivity | split; [reflexivity |]].
  apply (proj2 (resolvePATH_unrecognized posix linuxProcess
                  "/opt/ExpressLRS/dependencies" eq_refl eq_refl)).
  vm_compute. reflexivity.
Defined.

Lemma resolvePATH_recognized_witness :
  resolvePATH win32 windowsProcess windowsDependencies =
    "C:\Program Files\ExpressLRS\dependencies\windows_amd64\PortableGit\bin;C:\Program Files\ExpressLRS\dependencies\windows_amd64\python-portable-windows_amd64-3.7.7;C:\Windows;C:\Windows\System32"
  /\
  resolvePATH posix macProcess macDependencies =
    "/Applications/ExpressLRS.app/Contents/dependencies/darwin_amd64/git/2.30.1/bin:/Applications/ExpressLRS.app/Contents/dependencies/darwin_amd64/python-portable-darwin-3.8.4/bin:/usr/bin:/bin".
Proof.
  split.
  - refine (proj1 (resolvePATH_recognized win32 windowsProcess
                     windowsDependencies
                     "C:\Program Files\ExpressLRS\dependencies\windows_amd64\python-portable-windows_amd64-3.7.7"
                     "C:\Program Files\ExpressLRS\dependencies\windows_amd64\PortableGit\bin"
                     _ _)); [reflexivity | discriminate].
  - refine (proj1 (resolvePATH_recognized posix macProcess macDependencies
                     "/Applications/ExpressLRS.app/Contents/dependencies/darwin_amd64/python-portable-darwin-3.8.4/bin"
                     "/Applications/ExpressLRS.app/Contents/dependencies/darwin_amd64/git/2.30.1/bin"
                     _ _)); [reflexivity | discriminate].
Defined.

(** C2, refuted as stated: on Windows the Python location is not found
    before the Git location among the entries of the resolved PATH; it
    is the Git location that comes first. *)
Lemma pythonBeforeGit_counterexample :
  ~ pythonBeforeGit win32 windowsProcess windowsDependencies.
Proof.
  intros (py & git & Hloc & Hb).
  vm_compute in Hloc. injection Hloc as <- <-.
  vm_compute in Hb. discriminate Hb.
Qed.

Example gitBeforePython_windows :
  appearsBefore
    "C:\Program Files\ExpressLRS\dependencies\windows_amd64\PortableGit\bin"
    "C:\Program Files\ExpressLRS\dependencies\windows_amd64\python-portable-windows_amd64-3.7.7"
    (entries ";" (resolvePATH win32 windowsProcess windowsDependencies))
  = true.
Proof. vm_compute. reflexivity. Qed.

Lemma resolvePATH_reads_only_platform_and_PATH_witness :
  env linuxProcess <> env otherLinuxProcess /\
  (let r1 :=
     Reads.run (Reads.resolvePATH_prog posix "/opt/ExpressLRS/dependencies")
       linuxProcess in
   let r2 :=
     Reads.run (Reads.resolvePATH_prog posix "/opt/ExpressLRS/dependencies")
       otherLinuxProcess in
   fst (fst r1) = fst (fst r2) /\
   fst (fst r1) = resolvePATH posix linuxProcess "/opt/ExpressLRS/dependencies" /\
   snd (fst r1) =
     [Reads.ReadEnv "PATH"; Reads.ReadPlatform; Reads.ReadPlatform] /\
   snd (fst r2) = snd (fst r1) /\
   snd r1 = linuxProcess /\ snd r2 = otherLinuxProcess).
Proof.
  split.
  - intro H. apply (f_equal (fun m => m !! "HOME")) in H.
    vm_compute in H. discriminate H.
  - apply (resolvePATH_reads_only_platform_and_PATH posix linuxProcess
             otherLinuxProcess "/opt/ExpressLRS/dependencies");
      vm_compute; reflexivity.
Defined.

Lemma resolvePATH_without_PATH_witness :
  resolvePATH posix linuxProcessNoPATH "/opt/ExpressLRS/dependencies" = "" /\
  resolvePATH posix macProcessNoPATH macDependencies =
    "/Applications/ExpressLRS.app/Contents/dependencies/darwin_amd64/git/2.30.1/bin:/Applications/ExpressLRS.app/Contents/dependencies/darwin_amd64/python-portable-darwin-3.8.4/bin".
Proof.
  split.
  - exact (proj2 (resolvePATH_without_PATH posix linuxProcessNoPATH
                    "/opt/ExpressLRS/dependencies" eq_refl)).
  - exact (proj2 (resolvePATH_without_PATH posix macProcessNoPATH
                    macDependencies eq_refl)).
Defined.

End PathCompositionSamples.

(** ** Process-level error handlers *)

Section FatalErrors.
Import FatalError Dialogs Samples.

Lemma perform_running (e : Effect) (s : ProcState) :
  control s = Running -> control (perform e s) = Running.
Proof. intro H. unfold perform. now rewrite H. Qed.

Lemma perform_effects (e : Effect) (s : ProcState) :
  control s = Running -> effects (perform e s) = (effects s ++ [e])%list.
Proof. intro H. unfold perform. now rewrite H. Qed.

(** Once the process has exited or the handler's code has thrown, no
    handler code has any effect. *)
Lemma handleFatalError_not_running (err : Thrown) (dialog : Dialog)
    (s : ProcState) :
  control s <> Running -> handleFatalError err dialog s = s.
Proof.
  intro H. destruct s as [effs [| code | e]]; [now destruct H | |];
    unfold handleFatalError; destruct (toStr err); try reflexivity;
    destruct dialog as [| | | dialogErr]; try reflexivity;
    unfold seq; cbn; destruct (getStack dialogErr); reflexivity.
Qed.







Example uncaughtException_trace :
  handle (UncaughtException (AnError spawnError)) Fulfilled running =
  {| effects :=
       [ LoggerError "uncaughtException spawn platformio ENOENT"
           (Some "Error: spawn platformio ENOENT at ChildProcess._handle.onexit");
         LoggerError "handling fatal error: Error: spawn platformio ENOENT"
           None;
         ShowMessageBox "Oops! Something went wrong!"
           "Help us improve your experience by sending an error report"
           "Error: Error: spawn platformio ENOENT";
         ConsoleLog "received resp from message box";
         ProcessExit 1 ];
     control := Exited 1 |}.
Proof. vm_compute. reflexivity. Qed.

(** A symbol rejected by a promise: the listener throws at line 91,
    before any log, dialog or exit. *)
Example unhandledRejection_symbol :
  handle (UnhandledRejection (AnObject None None None)) Fulfilled running =
  {| effects := []; control := Raised CannotConvertToString |}.
Proof. reflexivity. Qed.

(** [throw null]: the listener throws at line 87. *)
Example uncaughtException_null :
  handle (UncaughtException Null) Fulfilled running =
  {| effects := []; control := Raised (CannotReadProperty "message") |}.
Proof. reflexivity. Qed.

End FatalErrors.

(** * Further properties *)

(** ** PATH composition on every platform *)

Section InheritedPATH.
Variable path : PathModule.

Lemma string_append_assoc (a b c : string) : (a ++ b) ++ c = a ++ (b ++ c).
Proof.
  induction a as [| x a IH]; [reflexivity |].
  now rewrite !append_cons, IH.
Qed.

Lemma string_length_append (a b : string) :
  String.length (a ++ b) = (String.length a + String.length b)%nat.
Proof.
  induction a as [| x a IH]; [reflexivity |].
  rewrite append_cons. simpl. now rewrite IH.
Qed.

(** The resolved PATH in one formula, for an inherited PATH that is not
    empty. *)
Lemma resolvePATH_inherited_nonempty (process : Process) (deps : string) :
  inheritedPATH process <> "" ->
  resolvePATH path process deps =
  match portableLocations path (platform process) deps with
  | Some (py, git) =>
      (git ++ String (delimiter path) (py ++ String (delimiter path) ""))
        ++ inheritedPATH process
  | None => "" ++ inheritedPATH process
  end.
Proof.
  intro Hin. rewrite resolvePATH_cases.
  destruct (portableLocations path (platform process) deps) as [[py git] |];
    [| reflexivity].
  rewrite (prependPATH_cons path (inheritedPATH process) py Hin).
  rewrite prependPATH_cons.
  - rewrite string_append_assoc, append_cons.
    now rewrite string_append_assoc, append_cons, append_nil.
  - intro H. apply append_empty_inv in H as [_ H]. discriminate H.
Qed.

(** X1: on every platform the resolved PATH ends with the inherited PATH:
    the composition only ever adds text in front of it. *)
Theorem resolvePATH_ends_with_inherited (process : Process) (deps : string) :
  exists front : string,
    resolvePATH path process deps = front ++ inheritedPATH process.
Proof.
  destruct (inheritedPATH process) as [| c rest] eqn:Hin.
  - exists (resolvePATH path process deps). now rewrite append_empty_r.
  - rewrite <- Hin. rewrite resolvePATH_inherited_nonempty
      by (rewrite Hin; discriminate).
    destruct (portableLocations path (platform process) deps) as [[py git] |];
      eexists; reflexivity.
Qed.

(** X2: when the inherited PATH is not empty, its entries are the last
    entries of the resolved PATH, in the same order: no inherited entry
    is lost, split or reordered. *)
Theorem resolvePATH_keeps_inherited_entries (process : Process)
    (deps : string) :
  inheritedPATH process <> "" ->
  exists front : list string,
    entries (delimiter path) (resolvePATH path process deps) =
    (front ++ entries (delimiter path) (inheritedPATH process))%list.
Proof.
  intro Hin. rewrite resolvePATH_cases.
  destruct (portableLocations path (platform process) deps) as [[py git] |].
  - rewrite (prependPATH_cons path (inheritedPATH process) py Hin).
    rewrite prependPATH_cons.
    + rewrite !entries_append.
      exists (entries (delimiter path) git ++ entries (delimiter path) py)%list.
      now rewrite <- app_assoc.
    + intro H. apply append_empty_inv in H as [_ H]. discriminate H.
  - exists []. reflexivity.
Qed.

Lemma resolvePATH_length_recognized (process : Process)
    (deps py git : string) :
  portableLocations path (platform process) deps = Some (py, git) ->
  py <> "" ->
  (String.length (inheritedPATH process)
   < String.length (resolvePATH path process deps))%nat.
Proof.
  intros Hloc Hpy. rewrite resolvePATH_cases, Hloc.
  destruct (inheritedPATH process) as [| c rest] eqn:Hin.
  - rewrite prependPATH_empty, prependPATH_cons by exact Hpy.
    rewrite string_length_append. simpl. lia.
  - rewrite (prependPATH_cons path (String c rest) py) by discriminate.
    rewrite prependPATH_cons.
    + rewrite !string_length_append. simpl.
      rewrite string_length_append. simpl. lia.
    + intro H. apply append_empty_inv in H as [_ H]. discriminate H.
Qed.

(** X3: on a recognized platform the resolved PATH is strictly longer
    than the inherited one, so it is never the inherited PATH itself. *)
Theorem resolvePATH_longer_when_recognized (process : Process)
    (deps py git : string) :
  portableLocations path (platform process) deps = Some (py, git) ->
  py <> "" ->
  (String.length (inheritedPATH process)
   < String.length (resolvePATH path process deps))%nat /\
  resolvePATH path process deps <> inheritedPATH process.
Proof.
  intros Hloc Hpy.
  pose proof (resolvePATH_length_recognized process deps py git Hloc Hpy) as H.
  split; [exact H |]. intro E. rewrite E in H. lia.
Qed.

End InheritedPATH.

(** ** The arguments of [localServer.start] *)

Section ServerArguments.
Import ServerStart.
Variable path : PathModule.
Variable join3 : string -> string -> string -> string.

Lemma resolvePATH_setInstallerTmpdir (app : App) (process : Process)
    (deps : string) :
  resolvePATH path (setInstallerTmpdir app process) deps =
  resolvePATH path process deps.
Proof.
  unfold resolvePATH, inheritedPATH, setInstallerTmpdir. simpl.
  now rewrite lookup_insert_ne by discriminate.
Qed.

Lemma object_assign_eq (heap : gmap nat (gmap string string)) (r : nat)
    (name value : string) :
  SharedEnv.object (SharedEnv.assign heap r name value) r =
  <[name := value]> (SharedEnv.object heap r).
Proof.
  unfold SharedEnv.object at 1, SharedEnv.assign.
  now rewrite lookup_insert_eq.
Qed.

(** X4: the [env] member of the configuration handed to the API server
    is [process.env] itself, the same object and not a copy.  After the
    call that object holds [PLATFORMIO_INSTALLER_TMPDIR] with the
    user-data directory and every other variable as before, no other
    object has changed, and whatever is assigned to a variable of
    [process.env] later is what the configuration's [env] holds for it.
    Read out of the heap, the configuration is the one that
    [serverStartArguments] gives. *)
Theorem serverEnv_is_process_env (app : App) (process : SharedEnv.ProcessRef)
    (resourcesPath dirname : string)
    (heap : gmap nat (gmap string string)) :
  let r :=
    SharedEnv.serverStartArgumentsRef path join3 app process resourcesPath
      dirname heap in
  let config := fst r in
  let heap' := snd r in
  SharedEnv.serverEnvRef config = SharedEnv.envRef process /\
  SharedEnv.object heap' (SharedEnv.envRef process) =
    <["PLATFORMIO_INSTALLER_TMPDIR" := userData app]>
      (SharedEnv.object heap (SharedEnv.envRef process)) /\
  (forall other : nat,
      other <> SharedEnv.envRef process -> heap' !! other = heap !! other) /\
  (forall name value : string,
      SharedEnv.object
        (SharedEnv.assign heap' (SharedEnv.envRef process) name value)
        (SharedEnv.serverEnvRef config) !! name = Some value) /\
  SharedEnv.configIn heap' config =
    fst (serverStartArguments path join3 app
           (SharedEnv.processIn heap process) resourcesPath dirname).
Proof.
  cbn zeta. cbn [fst snd SharedEnv.serverStartArgumentsRef
                 SharedEnv.serverEnvRef].
  split; [reflexivity | split; [apply object_assign_eq | split; [| split]]].
  - intros other Hother. unfold SharedEnv.assign.
    now rewrite lookup_insert_ne by congruence.
  - intros name value. rewrite object_assign_eq. apply lookup_insert_eq.
  - unfold SharedEnv.configIn, serverStartArguments, setInstallerTmpdir.
    cbn. now rewrite object_assign_eq.
Qed.

(** X5: on a recognized platform the composed PATH reaches the server
    only through the [PATH] field of the configuration: the [PATH]
    variable inside [env] is still the inherited one and differs from
    the composed PATH. *)
Theorem serverEnv_PATH_is_not_composed (app : App) (process : Process)
    (resourcesPath dirname py git : string) :
  portableLocations path (platform process)
    (dependenciesPath path (isPackaged app) resourcesPath dirname)
    = Some (py, git) ->
  py <> "" ->
  let cfg :=
    fst (serverStartArguments path join3 app process resourcesPath dirname) in
  serverEnv cfg !! "PATH" = env process !! "PATH" /\
  serverEnv cfg !! "PATH" <> Some (PATH cfg).
Proof.
  intros Hloc Hpy cfg.
  assert (serverEnv cfg !! "PATH" = env process !! "PATH") as E.
  { subst cfg. simpl. now rewrite lookup_insert_ne by discriminate. }
  split; [exact E |].
  rewrite E. intro H.
  pose proof (resolvePATH_length_recognized path process _ py git Hloc Hpy)
    as Hlen.
  subst cfg. simpl in H.
  unfold inheritedPATH in Hlen. rewrite H in Hlen. simpl in Hlen. lia.
Qed.

(** X6: running the same part of [createWindow] again, on the process as
    the first run left it, gives the same configuration and leaves the
    process as it is: the composed PATH does not grow from one call to
    the next. *)
Theorem serverStartArguments_idempotent (app : App) (process : Process)
    (resourcesPath dirname : string) :
  let r := serverStartArguments path join3 app process resourcesPath dirname in
  serverStartArguments path join3 app (snd r) resourcesPath dirname = r.
Proof.
  unfold serverStartArguments. cbn [fst snd].
  rewrite resolvePATH_setInstallerTmpdir.
  unfold setInstallerTmpdir. cbn [platform env].
  now rewrite insert_insert_eq.
Qed.

End ServerArguments.

(** ** Fatal errors and dialogs *)

Section FatalErrorDialogs.
Import FatalError Dialogs.




End FatalErrorDialogs.

(** ** Application and window events *)

Section Events.
Import AppEvents.

(** X8: the [window-all-closed] handler does nothing when the platform
    identifier is exactly ["darwin"], and only then; on every other
    platform it stops the API server and then quits the application, in
    that order.  The platforms on which the application stays resident
    are therefore ones that the PATH composition takes for macOS and not
    for Windows. *)
Theorem windowAllClosed_quits_unless_darwin (p : string) :
  (onWindowAllClosed p = [] <-> p = "darwin") /\
  (onWindowAllClosed p = [ServerStop; AppQuit] <-> p <> "darwin") /\
  (onWindowAllClosed p = [] ->
   startsWith p "darwin" = true /\ startsWith p "win" = false).
Proof.
  unfold onWindowAllClosed.
  destruct (String.eqb p "darwin") eqn:E; cbn [negb].
  - apply String.eqb_eq in E. subst p.
    split; [tauto | split].
    + split; [discriminate | intro H; now destruct H].
    + intros _. split; reflexivity.
  - apply String.eqb_neq in E.
    split; [| split].
    + split; [discriminate | intro H; now destruct (E H)].
    + tauto.
    + discriminate.
Qed.

Variable BrowserWindow : Type.

(** X9: when the [did-finish-load] handler does not throw, every call it
    makes is on the current main window; the window is minimized exactly
    when [START_MINIMIZED] is set to a non-empty text (whatever the
    text), it is shown exactly when it is not minimized, and it is
    focused exactly when it is shown. *)
Theorem didFinishLoad_minimizes_or_shows
    (mainWindow : option BrowserWindow) (env : gmap string string)
    (calls : list (BrowserWindow * WindowCall)) :
  onDidFinishLoad BrowserWindow mainWindow env = inr calls ->
  exists w : BrowserWindow,
    mainWindow = Some w /\
    (forall c, In c calls -> fst c = w) /\
    (In (w, Minimize) calls <->
       exists v : string, env !! "START_MINIMIZED" = Some v /\ v <> "") /\
    (In (w, Show) calls <-> ~ In (w, Minimize) calls) /\
    (In (w, Focus) calls <-> In (w, Show) calls).
Proof.
  unfold onDidFinishLoad.
  destruct mainWindow as [w |]; [| discriminate].
  intro H. exists w. split; [reflexivity |].
  destruct (env !! "START_MINIMIZED") as [[| ch v] |] eqn:Hv;
    cbn [truthy] in H; injection H as <-; cbn [In].
  - repeat split.
    + intros c [<- | [<- | []]]; reflexivity.
    + intros [E | [E | []]]; discriminate E.
    + intros (v & Hs & Hne). injection Hs as <-. congruence.
    + intros _ [E | [E | []]]; discriminate E.
    + intros _. left. reflexivity.
    + intros _. left. reflexivity.
    + intros _. right. left. reflexivity.
  - repeat split.
    + intros c [<- | []]. reflexivity.
    + intros _. exists (String ch v). split; [reflexivity | discriminate].
    + intros _. left. reflexivity.
    + intros [E | []]. discriminate E.
    + intros Hn. exfalso. apply Hn. left. reflexivity.
    + intros [E | []]. discriminate E.
    + intros [E | []]. discriminate E.
  - repeat split.
    + intros c [<- | [<- | []]]; reflexivity.
    + intros [E | [E | []]]; discriminate E.
    + intros (v & Hs & _). discriminate Hs.
    + intros _ [E | [E | []]]; discriminate E.
    + intros _. left. reflexivity.
    + intros _. left. reflexivity.
    + intros _. right. left. reflexivity.
Qed.

(** X10: the [did-finish-load] handler throws in exactly the states in
    which the [activate] handler opens a new window, whatever the
    environment; the state that the [closed] handler leaves is one of
    them, whichever window was current before. *)
Theorem didFinishLoad_throws_iff_activate_creates
    (mainWindow : option BrowserWindow) (env : gmap string string) :
  (onDidFinishLoad BrowserWindow mainWindow env = inl mainWindowNotDefined
   <-> onActivate BrowserWindow mainWindow = true) /\
  ((exists calls, onDidFinishLoad BrowserWindow mainWindow env = inr calls)
   <-> onActivate BrowserWindow mainWindow = false) /\
  onActivate BrowserWindow (onClosed BrowserWindow mainWindow) = true.
Proof.
  split; [| split; [| reflexivity]].
  - destruct mainWindow as [w |]; simpl; [| tauto].
    split; [| discriminate].
    destruct (truthy (env !! "START_MINIMIZED")); discriminate.
  - destruct mainWindow as [w |]; simpl.
    + split; [reflexivity |]. intros _.
      destruct (truthy (env !! "START_MINIMIZED")); eexists; reflexivity.
    + split; [intros [calls H]; discriminate H | discriminate].
Qed.

End Events.

(** ** Debugging aids *)

Section Debugging.
Import DevTools.

(** X11: when source-map support is installed, that is when [NODE_ENV]
    is ["production"], the debugging aids (electron-debug and the
    devtools extensions) are enabled exactly when [DEBUG_PROD] is the
    text ["true"]. *)
Theorem debugMode_in_production (env : gmap string string) :
  sourceMapSupport env = true ->
  (debugMode env = true <-> env !! "DEBUG_PROD" = Some "true").
Proof.
  unfold sourceMapSupport, debugMode. intro Hp.
  apply bool_decide_eq_true in Hp.
  rewrite orb_true_iff, !bool_decide_eq_true, Hp.
  split; [intros [H | H]; [discriminate H | exact H] | auto].
Qed.

(** X12: the first step of [createWindow] calls the installer only in
    debug mode; it fails only if, in debug mode, the installer throws
    instead of returning a promise; a rejected promise is logged and
    does not stop [createWindow]. *)
Theorem installStep_fails_only_on_throw (env : gmap string string)
    (call : InstallerCall) (err : FatalError.ErrorObject) :
  let step := createWindowInstallStep env call in
  fst (fst step) = debugMode env /\
  (snd (fst step) = RejectsWith err <->
     debugMode env = true /\ call = CallThrows err) /\
  (In err (snd step) <->
     debugMode env = true /\ call = CallRejected err) /\
  (call = CallRejected err -> snd (fst step) = Resolves).
Proof.
  unfold createWindowInstallStep.
  destruct (debugMode env); destruct call as [e | | e]; simpl;
    intuition congruence.
Qed.

End Debugging.

(** ** The [Loader] component *)

Section LoaderComponent.
Import Loader.

(** X13: when [Loader] renders, the style of its [Box] holds, for every
    property name, the value given by the caller's [sx] if there is one
    and the value of [styles.root] otherwise. *)
Theorem Loader_sx_lookup (props : LoaderProps) :
  loading props = true ->
  exists s : gmap string StyleValue,
    Loader props = Some (Box s [CircularProgress]) /\
    forall k : string,
      s !! k =
      match default ∅ (sx props) !! k with
      | Some v => Some v
      | None => styles_root !! k
      end.
Proof.
  intro Hl. unfold Loader. rewrite Hl.
  eexists. split; [reflexivity |].
  intro k. unfold spread. rewrite lookup_union.
  destruct (default ∅ (sx props) !! k); destruct (styles_root !! k);
    reflexivity.
Qed.

(** X14: [Loader] renders nothing exactly when [loading] is false; what
    it renders otherwise is one [Box] around one [CircularProgress], and
    the caller's [sx] can replace but never remove a property of
    [styles.root]. *)
Theorem Loader_rendering (props : LoaderProps) :
  (Loader props = None <-> loading props = false) /\
  (forall el : Element,
      Loader props = Some el ->
      exists s : gmap string StyleValue,
        el = Box s [CircularProgress] /\ dom styles_root ⊆ dom s).
Proof.
  unfold Loader. destruct (loading props); split.
  - split; discriminate.
  - intros el H. injection H as <-. eexists. split; [reflexivity |].
    unfold spread. rewrite dom_union_L. apply union_subseteq_r.
  - tauto.
  - intros el H. discriminate H.
Qed.

(** X15: with [sx] left out, or given as the empty object, the [Box]
    gets exactly [styles.root]. *)
Theorem Loader_default_sx (props : LoaderProps) :
  loading props = true ->
  default ∅ (sx props) = ∅ ->
  Loader props = Some (Box styles_root [CircularProgress]).
Proof.
  intros Hl Hsx. unfold Loader, spread. rewrite Hl, Hsx.
  now rewrite (left_id_L ∅ (∪)).
Qed.

End LoaderComponent.

(** ** The further properties on sample values *)

Section FurtherSamples.
Import Samples MoreSamples ServerStart AppEvents DevTools Loader FatalError
  Dialogs.

Example serverStartArguments_mac :
  fst (serverStartArguments posix posix_join3 packagedApp macProcess
         "/Applications/ExpressLRS.app/Contents/Resources" "") =
  {| git :=
       {| cloneUrl := "https://github.com/AlessandroAU/ExpressLRS";
          url := "https://github.com/AlessandroAU/ExpressLRS";
          owner := "AlessandroAU";
          repositoryName := "ExpressLRS" |};
     firmwaresPath :=
       "/Users/pilot/Library/Application Support/ExpressLRS/firmwares/git";
     getPlatformioPath :=
       "/Applications/ExpressLRS.app/Contents/dependencies/get-platformio.py";
     platformioStateTempStoragePath :=
       "/Users/pilot/Library/Application Support/ExpressLRS/platformio-temp-state-storage";
     PATH :=
       "/Applications/ExpressLRS.app/Contents/dependencies/darwin_amd64/git/2.30.1/bin:/Applications/ExpressLRS.app/Contents/dependencies/darwin_amd64/python-portable-darwin-3.8.4/bin:/usr/bin:/bin";
     serverEnv :=
       <["PLATFORMIO_INSTALLER_TMPDIR" :=
           "/Users/pilot/Library/Application Support/ExpressLRS"]>
         (env macProcess) |}.
Proof. vm_compute. reflexivity. Qed.

(** The configuration's [env] and [process.env] are one object: an
    assignment to [process.env] made after the call shows through the
    configuration, and the unrelated object is untouched. *)
Example serverEnv_shares_process_env :
  let r :=
    SharedEnv.serverStartArgumentsRef posix posix_join3 packagedApp
      macProcessRef "/Applications/ExpressLRS.app/Contents/Resources" ""
      sampleHeap in
  let later := SharedEnv.assign (snd r) 1%nat "PLATFORMIO_CORE_DIR" "/tmp/pio" in
  SharedEnv.serverEnvRef (fst r) = 1%nat /\
  SharedEnv.object later (SharedEnv.serverEnvRef (fst r))
    !! "PLATFORMIO_CORE_DIR" = Some "/tmp/pio" /\
  SharedEnv.object later (SharedEnv.serverEnvRef (fst r))
    !! "PLATFORMIO_INSTALLER_TMPDIR"
    = Some "/Users/pilot/Library/Application Support/ExpressLRS" /\
  later !! 2%nat = sampleHeap !! 2%nat.
Proof. vm_compute. repeat split. Qed.

Lemma resolvePATH_keeps_inherited_entries_witness :
  inheritedPATH windowsProcess <> "" /\
  exists front : list string,
    entries ";" (resolvePATH win32 windowsProcess windowsDependencies) =
    (front ++ ["C:\Windows"; "C:\Windows\System32"])%list.
Proof.
  assert (inheritedPATH windowsProcess <> "") as Hin.
  { intro H. vm_compute in H. discriminate H. }
  split; [exact Hin |].
  exact (resolvePATH_keeps_inherited_entries win32 windowsProcess
           windowsDependencies Hin).
Defined.

Lemma resolvePATH_longer_when_recognized_witness :
  (String.length (inheritedPATH macProcess)
   < String.length (resolvePATH posix macProcess macDependencies))%nat /\
  resolvePATH posix macProcess macDependencies <> inheritedPATH macProcess.
Proof.
  refine (resolvePATH_longer_when_recognized posix macProcess macDependencies
            "/Applications/ExpressLRS.app/Contents/dependencies/darwin_amd64/python-portable-darwin-3.8.4/bin"
            "/Applications/ExpressLRS.app/Contents/dependencies/darwin_amd64/git/2.30.1/bin"
            _ _); [reflexivity | discriminate].
Defined.

Lemma serverEnv_PATH_is_not_composed_witness :
  let cfg :=
    fst (serverStartArguments win32 win32_join3 windowsApp windowsProcess
           "C:\Program Files\ExpressLRS\resources" "") in
  serverEnv cfg !! "PATH" = Some "C:\Windows;C:\Windows\System32" /\
  serverEnv cfg !! "PATH" <> Some (PATH cfg).
Proof.
  refine (serverEnv_PATH_is_not_composed win32 win32_join3 windowsApp
            windowsProcess "C:\Program Files\ExpressLRS\resources" ""
            "C:\Program Files\ExpressLRS\dependencies\windows_amd64\python-portable-windows_amd64-3.7.7"
            "C:\Program Files\ExpressLRS\dependencies\windows_amd64\PortableGit\bin"
            _ _); [reflexivity | discriminate].
Defined.


Lemma didFinishLoad_minimizes_or_shows_witness :
  onDidFinishLoad nat (Some 7%nat) minimizedEnv = inr [(7%nat, Minimize)] /\
  exists w : nat,
    Some 7%nat = Some w /\
    (forall c, In c [(7%nat, Minimize)] -> fst c = w) /\
    (In (w, Minimize) [(7%nat, Minimize)] <->
       exists v : string,
         minimizedEnv !! "START_MINIMIZED" = Some v /\ v <> "") /\
    (In (w, Show) [(7%nat, Minimize)] <-> ~ In (w, Minimize) [(7%nat, Minimize)]) /\
    (In (w, Focus) [(7%nat, Minimize)] <-> In (w, Show) [(7%nat, Minimize)]).
Proof.
  split; [reflexivity |].
  exact (didFinishLoad_minimizes_or_shows nat (Some 7%nat) minimizedEnv
           [(7%nat, Minimize)] eq_refl).
Defined.

Lemma debugMode_in_production_witness :
  sourceMapSupport debugProdEnv = true /\
  (debugMode debugProdEnv = true <->
   debugProdEnv !! "DEBUG_PROD" = Some "true").
Proof.
  split; [reflexivity |].
  exact (debugMode_in_production debugProdEnv eq_refl).
Defined.

Lemma Loader_sx_lookup_witness :
  exists s : gmap string StyleValue,
    Loader {| loading := true; sx := Some callerSx |}
      = Some (Box s [CircularProgress]) /\
    forall k : string,
      s !! k =
      match callerSx !! k with
      | Some v => Some v
      | None => styles_root !! k
      end.
Proof.
  exact (Loader_sx_lookup {| loading := true; sx := Some callerSx |} eq_refl).
Defined.

Example Loader_callerSx_values :
  forall s : gmap string StyleValue,
    Loader {| loading := true; sx := Some callerSx |}
      = Some (Box s [CircularProgress]) ->
    s !! "marginBottom" = Some (StyleNumber 0) /\
    s !! "color" = Some (StyleString "red") /\
    s !! "display" = Some (StyleString "flex") /\
    s !! "padding" = None.
Proof.
  intros s H. injection H as <-. vm_compute. repeat split.
Qed.

Lemma Loader_default_sx_witness :
  Loader {| loading := true; sx := None |}
    = Some (Box styles_root [CircularProgress]) /\
  Loader {| loading := true; sx := Some ∅ |}
    = Some (Box styles_root [CircularProgress]).
Proof.
  split.
  - exact (Loader_default_sx {| loading := true; sx := None |}
             eq_refl eq_refl).
  - exact (Loader_default_sx {| loading := true; sx := Some ∅ |}
             eq_refl eq_refl).
Defined.

End FurtherSamples.
